(** * Moebius-index scripts: a shallow embedding and its checked properties

    The repository is four stand-alone Python scripts.  Three of them
    ([MathProof.py], [mobius_index_verifcation.py], [ahss_quickcheck.py])
    evaluate the same small pipeline

      cohomology dimensions, Pin+ ranks  -->  E2 ranks on the diagonal p+q=5
      -->  total rank m  -->  decade index I10(m)  -->  predicted density
      -->  agreement in decades,

    the fourth ([C_env_micro_script.py]) evaluates heat-kernel coefficients
    and a guarded half-ratio.

    Modelling choices.
    - Python [int] is [Z]; a [dict] with integer keys and values is stdpp's
      [gmap Z Z]; a missing key raises [KeyError], so subscription returns
      a [result].
    - Python [float] is IEEE binary64, i.e. Rocq's primitive [float]; the
      operators [*], [/], [+], [abs], [<] are the primitive ones, except
      that Python's [/] raises [ZeroDivisionError] on a zero divisor.
    - [pow] and [log10] of the C library are not fixed bit for bit by any
      standard; the float model takes them as a record [libm] passed to
      every function that reaches them.  Numeric
      statements that need their values are made over the real numbers,
      on a second reading of the same source lines in exact arithmetic
      (module [Exact]). *)

From Stdlib Require Import ZArith Lia String List Floats Reals Lra.
From stdpp Require Import gmap.

Set Warnings "-inexact-float".

Local Open Scope Z_scope.

(** ** Python run-time model *)

(** The exceptions the scripts can raise; all four derive from Python's
    [Exception]. *)
Inductive exception : Type :=
| KeyError (key : Z)
| ZeroDivisionError
| ValueError
| OverflowError.

Inductive result (A : Type) : Type :=
| Ok (a : A)
| Raise (e : exception).

Arguments Ok {A} a.
Arguments Raise {A} e.

Global Instance result_ret : MRet result := fun A a => Ok a.

Global Instance result_bind : MBind result := fun A B k r =>
  match r with
  | Ok a => k a
  | Raise e => Raise e
  end.

Global Instance result_fmap : FMap result := fun A B f r =>
  match r with
  | Ok a => Ok (f a)
  | Raise e => Raise e
  end.

(** [d[k]] on a dict. *)
Definition subscript (d : gmap Z Z) (k : Z) : result Z :=
  match d !! k with
  | Some v => Ok v
  | None => Raise (KeyError k)
  end.

(** [k in d]. *)
Definition contains (d : gmap Z Z) (k : Z) : bool := bool_decide (is_Some (d !! k)).

(** The embedded tables, identical in the three scripts. *)
Definition embedded_cohomology_dimensions : gmap Z Z :=
  <[2 := 2]> (<[3 := 1]> (<[4 := 2]> (<[5 := 2]> ∅))).

Definition embedded_pin_coefficients : gmap Z Z :=
  <[0 := 1]> (<[1 := 1]> (<[2 := 1]> (<[3 := 1]> ∅))).

(** ** Python floats

    [x / y] on floats raises [ZeroDivisionError] when [y] is zero of
    either sign, and is the IEEE quotient otherwise. *)
Definition float_div (x y : float) : result float :=
  if (y =? 0)%float then Raise ZeroDivisionError else Ok (x / y)%float.

(** [float(z)] for an int: rounding to nearest, ties to even;
    [OverflowError] when the int is too large. *)
Definition float_of_int (z : Z) : result float :=
  let f := SF2Prim (binary_normalize prec emax z 0 false) in
  if is_infinity f then Raise OverflowError else Ok f.

(** A Python number as the scripts meet them. *)
Inductive number : Type :=
| Int (z : Z)
| Float (f : float).

(** [x * n] for a float [x]: an int operand is converted first. *)
Definition float_mul (x : float) (n : number) : result float :=
  match n with
  | Int z => y ← float_of_int z; Ok (x * y)%float
  | Float y => Ok (x * y)%float
  end.

(** The two C library functions the scripts reach through [**] and
    [math.log10].  Their results are not fixed bit for bit, so they are
    taken as given. *)
Record libm : Type := {
  c_pow : float -> float -> float;
  c_log10 : float -> float
}.

(** [10 ** e] for an int [e]: the integer power when [0 <= e]; otherwise
    both operands are converted to floats and the C [pow] is called (for
    base ten and a negative exponent it cannot fail: underflow yields
    [0.0] silently). *)
Definition pow10 (C : libm) (e : Z) : result number :=
  if 0 <=? e then Ok (Int (10 ^ e))
  else y ← float_of_int e; Ok (Float (c_pow C 10 y)).

(** [math.log10(x)] for a float: NaN and [+inf] pass through, a positive
    finite argument goes to the C [log10], everything else (zero, negative,
    [-inf]) is a "math domain error". *)
Definition math_log10 (C : libm) (x : float) : result float :=
  if is_nan x then Ok x
  else if (0 <? x)%float then Ok (if is_infinity x then x else c_log10 C x)
  else Raise ValueError.

(** ** The decade index, [(2**m - 1) - m + 3]

    The three scripts share the body.  The model covers [int] arguments
    with [0 <= m], where Python's [2**m] is the integer power. *)
Definition decade_index (m : Z) : Z := (2 ^ m - 1) - m + 3.

(** ** MathProof.py *)
Module MathProof.

Record MobiusIndexCalculation : Type := {
  planck_density : float;
  observed_density : float;
  cohomology_dimensions : gmap Z Z;
  pin_coefficients : gmap Z Z
}.

(** [__init__] *)
Definition init : MobiusIndexCalculation := {|
  planck_density := 5.16e96%float;
  observed_density := 5.83e-27%float;
  cohomology_dimensions := embedded_cohomology_dimensions;
  pin_coefficients := embedded_pin_coefficients
|}.

(** One entry of [panel_data]: the dict with keys
    ['Panel'], ['H^p'], ['Pin'], ['E₂']. *)
Record panel : Type := {
  Panel : string;
  H_p : Z;
  Pin : Z;
  E2 : Z
}.

Definition e2_panels : list (string * Z * Z) :=
  [("E²⁵'⁰"%string, 5, 0); ("E²⁴'¹"%string, 4, 1);
   ("E²³'²"%string, 3, 2); ("E²²'³"%string, 2, 3)].

(** The [for] loop, with its two accumulators passed along. *)
Fixpoint e2_loop (self : MobiusIndexCalculation) (todo : list (string * Z * Z))
    (panel_data : list panel) (total_rank : Z) : result (list panel * Z) :=
  match todo with
  | [] => Ok (panel_data, total_rank)
  | (panel_name, p, q) :: todo' =>
      h_dim ← subscript (cohomology_dimensions self) p;
      pin_rank ← subscript (pin_coefficients self) q;
      let rank := h_dim * pin_rank in
      e2_loop self todo'
        (panel_data ++ [{| Panel := panel_name; H_p := h_dim; Pin := pin_rank; E2 := rank |}])
        (total_rank + rank)
  end.

Definition compute_ahss_e2_ranks (self : MobiusIndexCalculation)
  : result (list panel * Z) :=
  e2_loop self e2_panels [] 0.

(** The dict returned by [verify_physical_prediction]. *)
Record prediction : Type := {
  I10 : Z;
  predicted_density : float;
  agreement_decades : float
}.

Definition verify_physical_prediction (C : libm) (self : MobiusIndexCalculation) (m : Z)
  : result prediction :=
  let I10 := decade_index m in
  scale ← pow10 C (- I10);
  predicted_density ← float_mul (planck_density self) scale;
  ratio ← float_div (observed_density self) predicted_density;
  agreement_decades ← math_log10 C ratio;
  Ok {| I10 := I10; predicted_density := predicted_density;
        agreement_decades := agreement_decades |}.

(** The module-level statements from [calc = ...] on: the value of
    [success] on line 79. *)
Definition script (C : libm) : result bool :=
  let calc := init in
  ahss ← compute_ahss_e2_ranks calc;
  let m := snd ahss in
  physics ← verify_physical_prediction C calc m;
  Ok (abs (agreement_decades physics) <? 0.1)%float.

End MathProof.

(** ** mobius_index_verifcation.py *)
Module Verification.

Record MobiusIndexCalculation : Type := {
  planck_density : float;
  observed_density : float;
  cohomology_dimensions : gmap Z Z;
  pin_coefficients : gmap Z Z
}.

Definition init : MobiusIndexCalculation := {|
  planck_density := 5.16e96%float;
  observed_density := 5.83e-27%float;
  cohomology_dimensions := embedded_cohomology_dimensions;
  pin_coefficients := embedded_pin_coefficients
|}.

(** One entry of [panel_data]: keys ['panel'], ['p'], ['q'], ['h_dim'],
    ['pin_rank'], ['rank']. *)
Record panel : Type := {
  panel_name : string;
  panel_p : Z;
  panel_q : Z;
  h_dim : Z;
  pin_rank : Z;
  rank : Z
}.

Definition e2_panels : list (string * Z * Z) :=
  [("E^{5,0}_2"%string, 5, 0); ("E^{4,1}_2"%string, 4, 1);
   ("E^{3,2}_2"%string, 3, 2); ("E^{2,3}_2"%string, 2, 3)].

Fixpoint e2_loop (self : MobiusIndexCalculation) (todo : list (string * Z * Z))
    (total_rank : Z) (panel_data : list panel) : result (list panel * Z) :=
  match todo with
  | [] => Ok (panel_data, total_rank)
  | (name, p, q) :: todo' =>
      h_dimension ← subscript (cohomology_dimensions self) p;
      pin_rk ← subscript (pin_coefficients self) q;
      let rk := h_dimension * pin_rk in
      e2_loop self todo' (total_rank + rk)
        (panel_data ++ [{| panel_name := name; panel_p := p; panel_q := q;
                           h_dim := h_dimension; pin_rank := pin_rk; rank := rk |}])
  end.

Definition compute_ahss_e2_ranks (self : MobiusIndexCalculation)
  : result (list panel * Z) :=
  e2_loop self e2_panels 0 [].

(** The dict returned by [verify_physical_prediction]. *)
Record prediction : Type := {
  I10 : Z;
  predicted_density : float;
  observed : float;
  agreement_decades : float;
  accuracy_percent : float
}.

(** [(1 - abs(agreement) / math.log10(observed / planck)) * 100] *)
Definition accuracy (C : libm) (self : MobiusIndexCalculation) (agreement : float)
  : result float :=
  span ← float_div (observed_density self) (planck_density self);
  decades ← math_log10 C span;
  share ← float_div (abs agreement) decades;
  Ok ((1 - share) * 100)%float.

Definition verify_physical_prediction (C : libm) (self : MobiusIndexCalculation) (m : Z)
  : result prediction :=
  let I10 := decade_index m in
  scale ← pow10 C (- I10);
  predicted_density ← float_mul (planck_density self) scale;
  ratio ← float_div (observed_density self) predicted_density;
  agreement_decades ← math_log10 C ratio;
  accuracy_percent ← accuracy C self agreement_decades;
  Ok {| I10 := I10; predicted_density := predicted_density;
        observed := observed_density self;
        agreement_decades := agreement_decades;
        accuracy_percent := accuracy_percent |}.

(** [run_verification]: the rank computation runs twice, once for
    ['ahss_data'] and once to feed ['physics']. *)
Definition run_verification (C : libm) (self : MobiusIndexCalculation)
  : result (list panel * Z * prediction) :=
  ahss_data ← compute_ahss_e2_ranks self;
  again ← compute_ahss_e2_ranks self;
  physics ← verify_physical_prediction C self (snd again);
  Ok (ahss_data, physics).

(** [main], without its printing: the sensitivity loop calls
    [verify_physical_prediction] for [6], [7] and [8] and only prints
    the results; the value returned is the agreement of the main run. *)
Definition main (C : libm) : result float :=
  let calc := init in
  results ← run_verification C calc;
  let physics := snd results in
  _ ← verify_physical_prediction C calc 6;
  _ ← verify_physical_prediction C calc 7;
  _ ← verify_physical_prediction C calc 8;
  Ok (agreement_decades physics).

(** The [__main__] block: [sys.exit(0 if abs(agreement) < 0.1 else 1)],
    and [sys.exit(2)] in the handler of [except Exception]. *)
Definition exit_status (outcome : result float) : Z :=
  match outcome with
  | Ok agreement => if (abs agreement <? 0.1)%float then 0 else 1
  | Raise _ => 2
  end.

Definition script (C : libm) : Z := exit_status (main C).

End Verification.

(** ** ahss_quickcheck.py *)
Module Quickcheck.

(** The tuple list [e2_panels]: the four products are evaluated while the
    list is built, left to right, before the loop starts. *)
Definition e2_panels (cohomology_dims pin_ranks : gmap Z Z)
  : result (list (string * Z * Z * Z)) :=
  c5 ← subscript cohomology_dims 5; r0 ← subscript pin_ranks 0;
  c4 ← subscript cohomology_dims 4; r1 ← subscript pin_ranks 1;
  c3 ← subscript cohomology_dims 3; r2 ← subscript pin_ranks 2;
  c2 ← subscript cohomology_dims 2; r3 ← subscript pin_ranks 3;
  Ok [("E^{5,0}"%string, 5, 0, c5 * r0); ("E^{4,1}"%string, 4, 1, c4 * r1);
      ("E^{3,2}"%string, 3, 2, c3 * r2); ("E^{2,3}"%string, 2, 3, c2 * r3)].

(** A line printed by the loop: panel name, [h_dim], [pin_rank], [rank]. *)
Definition line : Type := (string * Z * Z * Z)%type.

(** The loop of [main]: both lookups fall back to the other index when
    the key is absent. *)
Fixpoint e2_loop (cohomology_dims pin_ranks : gmap Z Z)
    (todo : list (string * Z * Z * Z)) (printed : list line) (total_e2_rank : Z)
  : result (list line * Z) :=
  match todo with
  | [] => Ok (printed, total_e2_rank)
  | (panel_name, p, q, rank) :: todo' =>
      h_dim ← (if contains cohomology_dims p then subscript cohomology_dims p
               else subscript cohomology_dims q);
      pin_rank ← (if contains pin_ranks q then subscript pin_ranks q
                  else subscript pin_ranks p);
      e2_loop cohomology_dims pin_ranks todo'
        (printed ++ [(panel_name, h_dim, pin_rank, rank)]) (total_e2_rank + rank)
  end.

(** The rank part of [main], lines 56-68, as a function of the two
    tables; it yields the tuple list, the printed lines and the total. *)
Definition diagonal (cohomology_dims pin_ranks : gmap Z Z)
  : result (list (string * Z * Z * Z) * list line * Z) :=
  panels ← e2_panels cohomology_dims pin_ranks;
  out ← e2_loop cohomology_dims pin_ranks panels [] 0;
  Ok (panels, fst out, snd out).

Definition cohomology_dims : gmap Z Z := embedded_cohomology_dimensions.
Definition pin_ranks : gmap Z Z := embedded_pin_coefficients.

(** Lines 78-87 and 96-100 of [main] for a total rank [m]: the decade
    index, the predicted density and the agreement. *)
Definition prediction (C : libm) (planck_density observed_density : float) (m : Z)
  : result (Z * float * float) :=
  let I10_m := decade_index m in
  scale ← pow10 C (- I10_m);
  predicted_density ← float_mul planck_density scale;
  ratio ← float_div observed_density predicted_density;
  agreement_decades ← math_log10 C ratio;
  Ok (I10_m, predicted_density, agreement_decades).

(** [main], without its printing. *)
Definition main (C : libm) : result (Z * Z * float * float) :=
  out ← diagonal cohomology_dims pin_ranks;
  let m := snd out in
  let planck_density := 5.16e96%float in
  let observed_density := 5.83e-27%float in
  physics ← prediction C planck_density observed_density m;
  _ ← prediction C planck_density observed_density 6;
  _ ← prediction C planck_density observed_density 7;
  _ ← prediction C planck_density observed_density 8;
  Ok (m, fst (fst physics), snd (fst physics), snd physics).

End Quickcheck.

(** ** More of Python's run time, for the odd-winding kernel *)

(** [math.pi] *)
Definition math_pi : float := 0x1.921fb54442d18p+1%float.

(** [range(lo, hi)] over ints. *)
Definition range (lo hi : Z) : list Z :=
  map (fun i => lo + Z.of_nat i) (seq 0 (Z.to_nat (hi - lo))).

(** [math.exp(x)] around a C [exp]: a result that overflows for a finite
    argument is an [OverflowError] ("math range error"), a NaN result for
    an argument that is not a NaN a [ValueError]. *)
Definition math_exp (c_exp : float -> float) (x : float) : result float :=
  let r := c_exp x in
  if is_nan r && negb (is_nan x) then Raise ValueError
  else if is_infinity r && is_finite x then Raise OverflowError
  else Ok r.

(** [math.sqrt(x)]: the IEEE square root; a negative argument is a
    "math domain error". *)
Definition math_sqrt (x : float) : result float :=
  let r := PrimFloat.sqrt x in
  if is_nan r && negb (is_nan x) then Raise ValueError else Ok r.

(** ** C_env_micro_script.py

    The helpers nested in [main].  [1/6] divides two ints and [R/4] a
    float by an int; both are true divisions and are modelled with
    [float_div], so that no possible [ZeroDivisionError] is assumed away. *)
Module CEnv.

Local Open Scope float_scope.

Definition A_coeffs_scalar (vol R : float) : result (float * float) :=
  let A0 := vol in
  sixth ← float_div 1 6;
  Ok (A0, sixth * R * vol).

Definition A_coeffs_oneform (vol R : float) : result (float * float) :=
  let A0 := 3 * vol in
  sixth ← float_div 1 6;
  Ok (A0, sixth * R * (3 * vol) - R * vol).

Definition A_coeffs_maxwell (vol R : float) : result (float * float) :=
  one ← A_coeffs_oneform vol R;
  zero ← A_coeffs_scalar vol R;
  Ok (fst one - fst zero, snd one - snd zero).

Definition A_coeffs_dirac (vol R : float) : result (float * float) :=
  let A0 := 2 * vol in
  sixth ← float_div 1 6;
  quarter ← float_div R 4;
  Ok (A0, sixth * R * (2 * vol) + quarter * (2 * vol)).

(** [float('nan') if abs(den) < 1e-30 else 0.5 * (num/den)] *)
Definition safe_ratio (num den : float) : result float :=
  if abs den <? 1e-30 then Ok nan
  else quotient ← float_div num den; Ok (0.5 * quotient).

(** The loop of [K_odd] over the remaining values of [w], with the running
    sum [s]:
    [if w % 2 != 0: s += math.exp(-(L*L)*(w*w)/(4.0*t))]. *)
Fixpoint K_odd_loop (c_exp : float -> float) (t L : float) (ws : list Z) (s : float)
  : result float :=
  match ws with
  | [] => Ok s
  | w :: ws' =>
      if negb (w mod 2 =? 0)%Z then
        numerator ← float_mul (- (L * L)) (Int (w * w));
        argument ← float_div numerator (4 * t);
        term ← math_exp c_exp argument;
        K_odd_loop c_exp t L ws' (s + term)
      else K_odd_loop c_exp t L ws' s
  end.

(** [K_odd(t, L, Wmax)]; the script calls it with the defaults
    [L = 2*math.pi] and [Wmax = 25]. *)
Definition K_odd (c_exp : float -> float) (t L : float) (Wmax : Z) : result float :=
  s ← K_odd_loop c_exp t L (range (- Wmax) (Wmax + 1)) 0;
  root ← math_sqrt (4 * math_pi * t);
  scale ← float_div (2 * L) root;
  Ok (scale * s).

End CEnv.

(** Projections to what the three variants have in common: the per-panel
    rank sequence and the total. *)
Definition ranks_MathProof (r : result (list MathProof.panel * Z)) : result (list Z * Z) :=
  fmap (M := result) (fun out => (map MathProof.E2 (fst out), snd out)) r.

Definition ranks_Verification (r : result (list Verification.panel * Z)) : result (list Z * Z) :=
  fmap (M := result) (fun out => (map Verification.rank (fst out), snd out)) r.

Definition ranks_Quickcheck (r : result (list (string * Z * Z * Z) * list Quickcheck.line * Z))
  : result (list Z * Z) :=
  fmap (M := result) (fun out => (map snd (fst (fst out)), snd out)) r.

(** ** The operations under the names the specification gives them *)

(** [computeBordismRankSum]: [compute_ahss_e2_ranks] of the verification
    script on a calculation object that carries the two supplied tables. *)
Definition computeBordismRankSum (cohomologyDims pinRanks : gmap Z Z)
  : result (list Verification.panel * Z) :=
  Verification.compute_ahss_e2_ranks
    {| Verification.planck_density := Verification.planck_density Verification.init;
       Verification.observed_density := Verification.observed_density Verification.init;
       Verification.cohomology_dimensions := cohomologyDims;
       Verification.pin_coefficients := pinRanks |}.

(** [predictDensity]: the right-hand side of
    [predicted_density = self.planck_density * (10 ** (-I10))]. *)
Definition predictDensity (C : libm) (referenceDensity : float) (decadeIndexValue : Z)
  : result float :=
  scale ← pow10 C (- decadeIndexValue);
  float_mul referenceDensity scale.


(** The panel list referenced by all three variants. *)
Definition diagonal_5 : list (Z * Z) := [(5, 0); (4, 1); (3, 2); (2, 3)].

Definition complete (cohomologyDims pinRanks : gmap Z Z) : Prop :=
  forall p q, (p, q) ∈ diagonal_5 ->
    is_Some (cohomologyDims !! p) /\ is_Some (pinRanks !! q).

Definition incomplete (cohomologyDims pinRanks : gmap Z Z) : Prop :=
  exists p q, (p, q) ∈ diagonal_5 /\
    (cohomologyDims !! p = None \/ pinRanks !! q = None).

(** ** The prediction in exact arithmetic

    The lines of [verify_physical_prediction] read over the real numbers:
    the float literals stand for their decimal values, [10 ** (-I10)] is
    the real power and [math.log10] the real logarithm to base ten.  The
    numeric facts of the end-to-end scenario are stated here, and the
    closed form of the spinor coefficient. *)
Module Exact.

Local Open Scope R_scope.

Definition log10 (x : R) : R := ln x / ln 10.

Definition planck_density : R := 5.16e96.
Definition observed_density : R := 5.83e-27.

Definition predicted_density (m : Z) : R :=
  planck_density * powerRZ 10 (- decade_index m).

Definition agreement_decades (m : Z) : R :=
  log10 (observed_density / predicted_density m).

(** [A_coeffs_dirac] of the C_env script, read the same way; the
    curvature argument [R] of the source is [Rs] here. *)
Definition A_coeffs_dirac (vol Rs : R) : R * R :=
  let A0 := 2 * vol in
  let A2 := (1 / 6) * Rs * (2 * vol) + (Rs / 4) * (2 * vol) in
  (A0, A2).

End Exact.

(** * Properties *)

(** ** Dictionaries and first evaluations *)

Lemma subscript_Some d k v : d !! k = Some v -> subscript d k = Ok v.
Proof. intros H. unfold subscript. now rewrite H. Qed.

Lemma subscript_None d k : d !! k = None -> subscript d k = Raise (KeyError k).
Proof. intros H. unfold subscript. now rewrite H. Qed.

Lemma contains_true d k : contains d k = true <-> is_Some (d !! k).
Proof. unfold contains. apply bool_decide_eq_true. Qed.

Lemma contains_Some d k v : d !! k = Some v -> contains d k = true.
Proof. intros H. apply contains_true. eauto. Qed.

Example decade_index_7 : decade_index 7 = 123.
Proof. reflexivity. Qed.

Example verification_ranks :
  ranks_Verification (Verification.compute_ahss_e2_ranks Verification.init)
  = Ok ([2; 2; 1; 2], 7).
Proof. vm_compute. reflexivity. Qed.

Example quickcheck_ranks :
  ranks_Quickcheck (Quickcheck.diagonal Quickcheck.cohomology_dims Quickcheck.pin_ranks)
  = Ok ([2; 2; 1; 2], 7).
Proof. vm_compute. reflexivity. Qed.



(** ** Exact arithmetic: the numbers of the end-to-end scenario *)


Section ExactFacts.

Local Open Scope R_scope.









End ExactFacts.

(** ** The rank computation *)

(** Case analysis on the eight lookups of the diagonal. *)
Ltac lookups cd pr :=
  destruct (cd !! 5) as [c5|] eqn:Hc5; destruct (pr !! 0) as [r0|] eqn:Hr0;
  destruct (cd !! 4) as [c4|] eqn:Hc4; destruct (pr !! 1) as [r1|] eqn:Hr1;
  destruct (cd !! 3) as [c3|] eqn:Hc3; destruct (pr !! 2) as [r2|] eqn:Hr2;
  destruct (cd !! 2) as [c2|] eqn:Hc2; destruct (pr !! 3) as [r3|] eqn:Hr3.

Lemma complete_lookups cd pr :
  complete cd pr ->
  exists c5 r0 c4 r1 c3 r2 c2 r3,
    cd !! 5 = Some c5 /\ pr !! 0 = Some r0 /\ cd !! 4 = Some c4 /\ pr !! 1 = Some r1 /\
    cd !! 3 = Some c3 /\ pr !! 2 = Some r2 /\ cd !! 2 = Some c2 /\ pr !! 3 = Some r3.
Proof.
  intros H.
  destruct (H 5 0) as [[c5 ?] [r0 ?]]; [unfold diagonal_5; set_solver |].
  destruct (H 4 1) as [[c4 ?] [r1 ?]]; [unfold diagonal_5; set_solver |].
  destruct (H 3 2) as [[c3 ?] [r2 ?]]; [unfold diagonal_5; set_solver |].
  destruct (H 2 3) as [[c2 ?] [r3 ?]]; [unfold diagonal_5; set_solver |].
  exists c5, r0, c4, r1, c3, r2, c2, r3. repeat split; assumption.
Qed.

Lemma incomplete_not_complete cd pr : incomplete cd pr -> complete cd pr -> False.
Proof.
  intros (p & q & Hin & Hnone) Hc. destruct (Hc p q Hin) as [[? Hp] [? Hq]].
  destruct Hnone; congruence.
Qed.

Lemma complete_or_incomplete cd pr : complete cd pr \/ incomplete cd pr.
Proof.
  destruct (cd !! 5) as [c5|] eqn:Hc5; [| right; exists 5, 0; unfold diagonal_5; set_solver].
  destruct (pr !! 0) as [r0|] eqn:Hr0; [| right; exists 5, 0; unfold diagonal_5; set_solver].
  destruct (cd !! 4) as [c4|] eqn:Hc4; [| right; exists 4, 1; unfold diagonal_5; set_solver].
  destruct (pr !! 1) as [r1|] eqn:Hr1; [| right; exists 4, 1; unfold diagonal_5; set_solver].
  destruct (cd !! 3) as [c3|] eqn:Hc3; [| right; exists 3, 2; unfold diagonal_5; set_solver].
  destruct (pr !! 2) as [r2|] eqn:Hr2; [| right; exists 3, 2; unfold diagonal_5; set_solver].
  destruct (cd !! 2) as [c2|] eqn:Hc2; [| right; exists 2, 3; unfold diagonal_5; set_solver].
  destruct (pr !! 3) as [r3|] eqn:Hr3; [| right; exists 2, 3; unfold diagonal_5; set_solver].
  left. intros p q Hin. unfold diagonal_5 in Hin.
  repeat (apply elem_of_cons in Hin; destruct Hin as [Hin|Hin];
          [injection Hin as -> ->; split; eauto |]).
  inversion Hin.
Qed.

(** What the verification script's method computes, lookup by lookup. *)
Lemma computeBordismRankSum_unfold cd pr :
  computeBordismRankSum cd pr =
    c5 ← subscript cd 5; r0 ← subscript pr 0;
    c4 ← subscript cd 4; r1 ← subscript pr 1;
    c3 ← subscript cd 3; r2 ← subscript pr 2;
    c2 ← subscript cd 2; r3 ← subscript pr 3;
    Ok ([Verification.Build_panel "E^{5,0}_2" 5 0 c5 r0 (c5 * r0);
         Verification.Build_panel "E^{4,1}_2" 4 1 c4 r1 (c4 * r1);
         Verification.Build_panel "E^{3,2}_2" 3 2 c3 r2 (c3 * r2);
         Verification.Build_panel "E^{2,3}_2" 2 3 c2 r3 (c2 * r3)],
        0 + c5 * r0 + c4 * r1 + c3 * r2 + c2 * r3).
Proof. reflexivity. Qed.

(** The method reads nothing of [self] but the two tables. *)
Lemma verification_ranks_tables planck observed cd pr :
  Verification.compute_ahss_e2_ranks
    (Verification.Build_MobiusIndexCalculation planck observed cd pr)
  = computeBordismRankSum cd pr.
Proof. reflexivity. Qed.

Lemma quickcheck_diagonal_complete cd pr c5 r0 c4 r1 c3 r2 c2 r3 :
  cd !! 5 = Some c5 -> pr !! 0 = Some r0 -> cd !! 4 = Some c4 -> pr !! 1 = Some r1 ->
  cd !! 3 = Some c3 -> pr !! 2 = Some r2 -> cd !! 2 = Some c2 -> pr !! 3 = Some r3 ->
  Quickcheck.diagonal cd pr =
    Ok ([("E^{5,0}"%string, 5, 0, c5 * r0); ("E^{4,1}"%string, 4, 1, c4 * r1);
         ("E^{3,2}"%string, 3, 2, c3 * r2); ("E^{2,3}"%string, 2, 3, c2 * r3)],
        [("E^{5,0}"%string, c5, r0, c5 * r0); ("E^{4,1}"%string, c4, r1, c4 * r1);
         ("E^{3,2}"%string, c3, r2, c3 * r2); ("E^{2,3}"%string, c2, r3, c2 * r3)],
        0 + c5 * r0 + c4 * r1 + c3 * r2 + c2 * r3).
Proof.
  intros H5 H0 H4 H1 H3 H2 H2' H3'.
  unfold Quickcheck.diagonal, Quickcheck.e2_panels.
  rewrite (subscript_Some _ _ _ H5), (subscript_Some _ _ _ H0),
    (subscript_Some _ _ _ H4), (subscript_Some _ _ _ H1),
    (subscript_Some _ _ _ H3), (subscript_Some _ _ _ H2),
    (subscript_Some _ _ _ H2'), (subscript_Some _ _ _ H3').
  cbn.
  rewrite (contains_Some _ _ _ H5), (contains_Some _ _ _ H0),
    (contains_Some _ _ _ H4), (contains_Some _ _ _ H1),
    (contains_Some _ _ _ H3), (contains_Some _ _ _ H2),
    (contains_Some _ _ _ H2'), (contains_Some _ _ _ H3').
  rewrite (subscript_Some _ _ _ H5), (subscript_Some _ _ _ H0),
    (subscript_Some _ _ _ H4), (subscript_Some _ _ _ H1),
    (subscript_Some _ _ _ H3), (subscript_Some _ _ _ H2),
    (subscript_Some _ _ _ H2'), (subscript_Some _ _ _ H3').
  reflexivity.
Qed.

(** With a key missing, building the tuple list already raises, for the
    first key missing in the order of evaluation, as the class method does. *)
Lemma quickcheck_diagonal_raise cd pr e :
  computeBordismRankSum cd pr = Raise e -> Quickcheck.diagonal cd pr = Raise e.
Proof.
  rewrite computeBordismRankSum_unfold.
  unfold Quickcheck.diagonal, Quickcheck.e2_panels, subscript.
  lookups cd pr; cbn; congruence.
Qed.

Lemma rank_sum_complete cd pr :
  complete cd pr -> exists out, computeBordismRankSum cd pr = Ok out.
Proof.
  intros H. destruct (complete_lookups cd pr H)
    as (c5 & r0 & c4 & r1 & c3 & r2 & c2 & r3 & H5 & H0 & H4 & H1 & H3 & H2 & H2' & H3').
  rewrite computeBordismRankSum_unfold.
  rewrite (subscript_Some _ _ _ H5), (subscript_Some _ _ _ H0),
    (subscript_Some _ _ _ H4), (subscript_Some _ _ _ H1),
    (subscript_Some _ _ _ H3), (subscript_Some _ _ _ H2),
    (subscript_Some _ _ _ H2'), (subscript_Some _ _ _ H3').
  eexists. reflexivity.
Qed.

Lemma rank_sum_incomplete cd pr :
  incomplete cd pr ->
  exists k, computeBordismRankSum cd pr = Raise (KeyError k)
            /\ (cd !! k = None \/ pr !! k = None).
Proof.
  intros H. rewrite computeBordismRankSum_unfold. unfold subscript.
  lookups cd pr; cbn;
    try (eexists; split; [reflexivity | (left; assumption) || (right; assumption)]).
  exfalso. apply (incomplete_not_complete cd pr H).
  intros p q Hin. unfold diagonal_5 in Hin.
  repeat (apply elem_of_cons in Hin; destruct Hin as [Hin|Hin];
          [injection Hin as -> ->; split; eauto |]).
  inversion Hin.
Qed.

Lemma complete_embedded :
  complete embedded_cohomology_dimensions embedded_pin_coefficients.
Proof.
  intros p q Hin. unfold diagonal_5 in Hin.
  repeat (apply elem_of_cons in Hin; destruct Hin as [Hin|Hin];
          [injection Hin as -> ->; split; eexists; vm_compute; reflexivity |]).
  inversion Hin.
Qed.

Lemma incomplete_empty : incomplete ∅ embedded_pin_coefficients.
Proof.
  exists 5, 0. split; [unfold diagonal_5; set_solver | left; apply lookup_empty].
Qed.

(** C2: on the embedded tables, [computeBordismRankSum] over the panels
    [(5,0), (4,1), (3,2), (2,3)] returns the per-panel ranks [2, 2, 1, 2],
    each the product of the looked-up dimension and Pin rank, and total 7;
    the other two scripts give the same ranks and total. *)
Theorem computeBordismRankSum_embedded :
  exists panels,
    computeBordismRankSum embedded_cohomology_dimensions embedded_pin_coefficients
      = Ok (panels, 7)
    /\ map (fun r => (Verification.panel_p r, Verification.panel_q r)) panels = diagonal_5
    /\ map Verification.rank panels = [2; 2; 1; 2]
    /\ Forall (fun r =>
         embedded_cohomology_dimensions !! Verification.panel_p r = Some (Verification.h_dim r)
         /\ embedded_pin_coefficients !! Verification.panel_q r = Some (Verification.pin_rank r)
         /\ Verification.rank r = Verification.h_dim r * Verification.pin_rank r) panels
    /\ ranks_MathProof (MathProof.compute_ahss_e2_ranks MathProof.init) = Ok ([2; 2; 1; 2], 7)
    /\ ranks_Quickcheck (Quickcheck.diagonal Quickcheck.cohomology_dims Quickcheck.pin_ranks)
       = Ok ([2; 2; 1; 2], 7).
Proof.
  eexists. split; [vm_compute; reflexivity |].
  split; [reflexivity |]. split; [reflexivity |].
  split; [repeat constructor |]. split; vm_compute; reflexivity.
Qed.

(** C9: [computeBordismRankSum] raises [KeyError], for a key that is
    absent, exactly when some [p] or [q] referenced by the panel list is
    missing from its table, and returns exactly when both tables contain
    all referenced keys; nothing else is ever raised, and the same holds
    for the inline computation of the quick check. *)
Theorem computeBordismRankSum_lookup_error (cohomologyDims pinRanks : gmap Z Z) :
  ((exists out, computeBordismRankSum cohomologyDims pinRanks = Ok out)
     <-> complete cohomologyDims pinRanks)
  /\ ((exists k, computeBordismRankSum cohomologyDims pinRanks = Raise (KeyError k)
                 /\ (cohomologyDims !! k = None \/ pinRanks !! k = None))
     <-> incomplete cohomologyDims pinRanks)
  /\ (forall e, computeBordismRankSum cohomologyDims pinRanks = Raise e ->
                exists k, e = KeyError k)
  /\ ((exists out, Quickcheck.diagonal cohomologyDims pinRanks = Ok out)
     <-> complete cohomologyDims pinRanks)
  /\ ((exists k, Quickcheck.diagonal cohomologyDims pinRanks = Raise (KeyError k))
     <-> incomplete cohomologyDims pinRanks).
Proof.
  set (cd := cohomologyDims). set (pr := pinRanks).
  assert (Hok : forall out, computeBordismRankSum cd pr = Ok out -> complete cd pr).
  { intros out Hout. destruct (complete_or_incomplete cd pr) as [Hc|Hi]; [exact Hc |].
    destruct (rank_sum_incomplete cd pr Hi) as (k & Hk & _). congruence. }
  assert (Herr : forall e, computeBordismRankSum cd pr = Raise e -> incomplete cd pr).
  { intros e He. destruct (complete_or_incomplete cd pr) as [Hc|Hi]; [| exact Hi].
    destruct (rank_sum_complete cd pr Hc) as (out & Hout). congruence. }
  split; [| split; [| split; [| split]]].
  - split; [intros [out Hout]; eauto | apply rank_sum_complete].
  - split; [intros (k & Hk & _); eauto | apply rank_sum_incomplete].
  - intros e He. destruct (rank_sum_incomplete cd pr (Herr e He)) as (k & Hk & _).
    exists k. congruence.
  - split.
    + intros [out Hout]. destruct (complete_or_incomplete cd pr) as [Hc|Hi]; [exact Hc |].
      destruct (rank_sum_incomplete cd pr Hi) as (k & Hk & _).
      apply quickcheck_diagonal_raise in Hk. congruence.
    + intros Hc. destruct (complete_lookups cd pr Hc)
        as (c5 & r0 & c4 & r1 & c3 & r2 & c2 & r3 & H5 & H0 & H4 & H1 & H3 & H2 & H2' & H3').
      eexists. eapply quickcheck_diagonal_complete; eassumption.
  - split.
    + intros [k Hk]. destruct (complete_or_incomplete cd pr) as [Hc|Hi]; [| exact Hi].
      destruct (complete_lookups cd pr Hc)
        as (c5 & r0 & c4 & r1 & c3 & r2 & c2 & r3 & H5 & H0 & H4 & H1 & H3 & H2 & H2' & H3').
      rewrite (quickcheck_diagonal_complete _ _ _ _ _ _ _ _ _ _ H5 H0 H4 H1 H3 H2 H2' H3') in Hk.
      discriminate.
    + intros Hi. destruct (rank_sum_incomplete cd pr Hi) as (k & Hk & _).
      exists k. apply quickcheck_diagonal_raise. exact Hk.
Qed.

Lemma computeBordismRankSum_lookup_error_witness :
  (exists out, computeBordismRankSum embedded_cohomology_dimensions
                 embedded_pin_coefficients = Ok out)
  /\ (exists k, computeBordismRankSum ∅ embedded_pin_coefficients = Raise (KeyError k)
                /\ ((∅ : gmap Z Z) !! k = None \/ embedded_pin_coefficients !! k = None)).
Proof.
  split.
  - apply (proj1 (computeBordismRankSum_lookup_error _ _)), complete_embedded.
  - apply (proj1 (proj2 (computeBordismRankSum_lookup_error _ _))), incomplete_empty.
Defined.

(** C10: the method of [MathProof.py], the method of
    [mobius_index_verifcation.py] and the inline computation of
    [ahss_quickcheck.py] yield the same per-panel ranks and the same
    total on the diagonal [p + q = 5]: for any two tables (the same
    [KeyError] included), and [[2, 2, 1, 2]] with total [7] on the
    embedded ones. *)
Theorem rank_variants_agree :
  (forall (planck observed : float) (cohomologyDims pinRanks : gmap Z Z),
     let viaMathProof :=
       ranks_MathProof (MathProof.compute_ahss_e2_ranks
         (MathProof.Build_MobiusIndexCalculation planck observed cohomologyDims pinRanks)) in
     let viaVerification :=
       ranks_Verification (Verification.compute_ahss_e2_ranks
         (Verification.Build_MobiusIndexCalculation planck observed cohomologyDims pinRanks)) in
     let viaQuickcheck := ranks_Quickcheck (Quickcheck.diagonal cohomologyDims pinRanks) in
     viaMathProof = viaVerification /\ viaVerification = viaQuickcheck)
  /\ ranks_MathProof (MathProof.compute_ahss_e2_ranks MathProof.init) = Ok ([2; 2; 1; 2], 7)
  /\ ranks_Verification (Verification.compute_ahss_e2_ranks Verification.init)
     = Ok ([2; 2; 1; 2], 7)
  /\ ranks_Quickcheck (Quickcheck.diagonal Quickcheck.cohomology_dims Quickcheck.pin_ranks)
     = Ok ([2; 2; 1; 2], 7).
Proof.
  split; [| repeat split; vm_compute; reflexivity].
  intros planck observed cd pr. cbv zeta. split.
  - unfold ranks_MathProof, ranks_Verification, MathProof.compute_ahss_e2_ranks,
      Verification.compute_ahss_e2_ranks, subscript. cbn. unfold subscript.
    lookups cd pr; reflexivity.
  - destruct (complete_or_incomplete cd pr) as [Hc|Hi].
    + destruct (complete_lookups cd pr Hc)
        as (c5 & r0 & c4 & r1 & c3 & r2 & c2 & r3 & H5 & H0 & H4 & H1 & H3 & H2 & H2' & H3').
      rewrite (quickcheck_diagonal_complete _ _ _ _ _ _ _ _ _ _ H5 H0 H4 H1 H3 H2 H2' H3').
      rewrite verification_ranks_tables, computeBordismRankSum_unfold.
      rewrite (subscript_Some _ _ _ H5), (subscript_Some _ _ _ H0),
        (subscript_Some _ _ _ H4), (subscript_Some _ _ _ H1),
        (subscript_Some _ _ _ H3), (subscript_Some _ _ _ H2),
        (subscript_Some _ _ _ H2'), (subscript_Some _ _ _ H3').
      reflexivity.
    + destruct (rank_sum_incomplete cd pr Hi) as (k & Hk & _).
      rewrite (quickcheck_diagonal_raise _ _ _ Hk).
      rewrite verification_ranks_tables.
      unfold ranks_Verification. rewrite Hk. reflexivity.
Qed.

(** ** The decade index *)

Lemma decade_index_succ (m : Z) :
  0 <= m -> decade_index (m + 1) = decade_index m + (2 ^ m - 1).
Proof.
  intros Hm. unfold decade_index.
  replace (m + 1) with (Z.succ m) by lia. rewrite Z.pow_succ_r by exact Hm. lia.
Qed.

Lemma two_pow_ge_1 (m : Z) : 0 <= m -> 1 <= 2 ^ m.
Proof. intros Hm. change 1 with (2 ^ 0). apply Z.pow_le_mono_r; lia. Qed.

Lemma two_pow_ge_2 (m : Z) : 1 <= m -> 2 <= 2 ^ m.
Proof. intros Hm. change 2 with (2 ^ 1) at 1. apply Z.pow_le_mono_r; lia. Qed.

Lemma decade_index_step (m : Z) : 1 <= m -> decade_index m < decade_index (m + 1).
Proof.
  intros Hm. rewrite decade_index_succ by lia. pose proof (two_pow_ge_2 m Hm). lia.
Qed.

Lemma decade_index_lt (m n : Z) : 1 <= m -> m < n -> decade_index m < decade_index n.
Proof.
  intros Hm Hlt. replace n with (m + 1 + (n - m - 1)) by lia.
  assert (Hk : 0 <= n - m - 1) by lia. revert Hk.
  generalize (n - m - 1) as k. apply natlike_ind.
  - rewrite Z.add_0_r. apply decade_index_step, Hm.
  - intros k Hk IH. replace (m + 1 + Z.succ k) with (m + 1 + k + 1) by lia.
    pose proof (decade_index_step (m + 1 + k) ltac:(lia)). lia.
Qed.

(** C4, as the specification words it, fails at [m = 0]: the index is 3
    at both 0 and 1. *)
Lemma decade_index_plateau :
  0 <= 0 /\ decade_index 0 = 3 /\ decade_index (0 + 1) = 3
  /\ ~ decade_index (0 + 1) > decade_index 0.
Proof. repeat split; try reflexivity; try lia. vm_compute. discriminate. Qed.

(** C4 (amended): [decade_index m = (2^m - 1) - m + 3] is strictly
    increasing from [m = 1] on, non-decreasing from [m = 0] on (with
    [decade_index 0 = decade_index 1]), and [decade_index 7 = 123]. *)
Theorem decade_index_increasing :
  (forall m, 1 <= m -> decade_index (m + 1) > decade_index m)
  /\ (forall m n, 1 <= m -> m < n -> decade_index m < decade_index n)
  /\ (forall m, 0 <= m -> decade_index (m + 1) >= decade_index m)
  /\ decade_index 0 = decade_index 1
  /\ decade_index 7 = 123.
Proof.
  split; [| split; [| split; [| split; reflexivity]]].
  - intros m Hm. apply Z.lt_gt, decade_index_step, Hm.
  - apply decade_index_lt.
  - intros m Hm. rewrite decade_index_succ by exact Hm.
    pose proof (two_pow_ge_1 m Hm). lia.
Qed.

Lemma decade_index_increasing_witness :
  decade_index (7 + 1) > decade_index 7 /\ decade_index 3 < decade_index 9.
Proof.
  split.
  - apply (proj1 decade_index_increasing). lia.
  - apply (proj1 (proj2 decade_index_increasing)); lia.
Defined.

(** ** Binary64 facts used below *)
Section FloatFacts.

Local Open Scope float_scope.

(** A float equal to zero (of either sign) is below the threshold of
    [safe_ratio] in magnitude. *)
Lemma zero_below_threshold (x : float) : (x =? 0) = true -> (abs x <? 1e-30) = true.
Proof.
  rewrite FloatAxioms.eqb_spec, FloatAxioms.ltb_spec, FloatAxioms.abs_spec.
  change (Prim2SF 0) with (S754_zero false).
  destruct (Prim2SF x) as [[]|[]| |[] m e]; intros H;
    try (vm_compute in H; discriminate H); vm_compute; reflexivity.
Qed.






End FloatFacts.

(** ** The C_env script *)

(** C3: for every pair of floats, [safe_ratio] returns NaN when
    [abs den < 1e-30] and half the quotient [num / den] otherwise, whatever
    the signs; it never raises, in particular no [ZeroDivisionError]. *)
Theorem safe_ratio_total (num den : float) :
  CEnv.safe_ratio num den
    = Ok (if (abs den <? 1e-30)%float then nan else (0.5 * (num / den))%float)
  /\ CEnv.safe_ratio num den <> Raise ZeroDivisionError.
Proof.
  assert (H : CEnv.safe_ratio num den
    = Ok (if (abs den <? 1e-30)%float then nan else (0.5 * (num / den))%float)).
  { unfold CEnv.safe_ratio, float_div.
    destruct (abs den <? 1e-30)%float eqn:Hsmall; [reflexivity |].
    destruct (den =? 0)%float eqn:Hzero; [| reflexivity].
    apply zero_below_threshold in Hzero. congruence. }
  split; [exact H | rewrite H; discriminate].
Qed.

(** C7, as worded, fails in binary64: at [vol = 1], [R = 5] the script
    returns [A2 = 0x1.0aaaaaaaaaaaap+2], while [(R/6)*(2*vol) + (R/4)*(2*vol)]
    evaluates to [0x1.0aaaaaaaaaaabp+2], the float nearest to [25/6]. *)
Lemma A_coeffs_dirac_rounding :
  CEnv.A_coeffs_dirac 1 5 = Ok (2, 0x1.0aaaaaaaaaaaap+2)%float
  /\ ((5 / 6) * (2 * 1) + (5 / 4) * (2 * 1) = 0x1.0aaaaaaaaaaabp+2)%float
  /\ (0x1.0aaaaaaaaaaaap+2 =? 0x1.0aaaaaaaaaaabp+2)%float = false.
Proof. repeat split; reflexivity. Qed.

(** C7 (amended): for all floats [vol] and [R], [A_coeffs_dirac] raises
    nothing and returns [A0 = 2*vol] and
    [A2 = (1/6)*R*(2*vol) + (R/4)*(2*vol)], evaluated in binary64 in this
    order; in exact arithmetic this expression equals
    [(R/6)(2V) + (R/4)(2V)], and so it does in binary64 at the curvature
    [R = 6.0] the script uses. *)
Theorem A_coeffs_dirac_closed_form :
  (forall vol R : float,
     CEnv.A_coeffs_dirac vol R
       = Ok (2 * vol, (1 / 6) * R * (2 * vol) + (R / 4) * (2 * vol))%float)
  /\ (forall V Rs : R,
        Exact.A_coeffs_dirac V Rs
          = (2 * V, (Rs / 6) * (2 * V) + (Rs / 4) * (2 * V))%R)
  /\ (forall vol : float,
        CEnv.A_coeffs_dirac vol 6
          = Ok (2 * vol, (6 / 6) * (2 * vol) + (6 / 4) * (2 * vol))%float).
Proof.
  split; [| split].
  - intros vol R. reflexivity.
  - intros V Rs. unfold Exact.A_coeffs_dirac. cbv zeta. f_equal. lra.
  - intros vol. reflexivity.
Qed.

(** ** Agreement in decades *)





(** ** Prediction and round trip *)

Lemma decade_index_ge_3 (m : Z) : 0 <= m -> 3 <= decade_index m.
Proof.
  revert m. apply natlike_ind.
  - vm_compute. discriminate.
  - intros m Hm IH. replace (Z.succ m) with (m + 1) by lia.
    rewrite decade_index_succ by exact Hm. pose proof (two_pow_ge_1 m Hm). lia.
Qed.


Lemma pow10_negative (C : libm) (I10 : Z) (exponent : float) :
  0 < I10 -> float_of_int (- I10) = Ok exponent ->
  pow10 C (- I10) = Ok (Float (c_pow C 10 exponent)).
Proof.
  intros Hpos Hconv. unfold pow10.
  destruct (0 <=? - I10) eqn:Hle; [apply Z.leb_le in Hle; lia |].
  rewrite Hconv. reflexivity.
Qed.



(** ** Exit status of the verification script *)




(** ** The end-to-end scenario *)


Example range_demo : range (-2) 3 = [-2; -1; 0; 1; 2] /\ range 3 (-2) = [].
Proof. split; reflexivity. Qed.
Example K_odd_demo :
  CEnv.K_odd (fun _ => 1%float) 0.5 (2 * math_pi)%float 1
  = (scale ← float_div (2 * (2 * math_pi))%float (PrimFloat.sqrt (4 * math_pi * 0.5))%float;
     Ok (scale * 2)%float).
Proof. vm_compute. reflexivity. Qed.

(** * Further properties of the code *)

(** ** The rank loops on an arbitrary panel list *)

(** X1: whenever a rank loop returns, it has appended exactly one row per
    panel, in the order of the list, each row holding the two table entries
    and their product, and the total has grown by the sum of the new
    products; so for the methods the total is the sum of the ranks. *)
Theorem rank_loop_invariant :
  (forall self todo total panels out_panels out_total,
     Verification.e2_loop self todo total panels = Ok (out_panels, out_total) ->
     exists fresh,
       out_panels = panels ++ fresh
       /\ map (fun r => (Verification.panel_name r, Verification.panel_p r,
                         Verification.panel_q r)) fresh = todo
       /\ Forall (fun r =>
            Verification.cohomology_dimensions self !! Verification.panel_p r
              = Some (Verification.h_dim r)
            /\ Verification.pin_coefficients self !! Verification.panel_q r
              = Some (Verification.pin_rank r)
            /\ Verification.rank r = Verification.h_dim r * Verification.pin_rank r) fresh
       /\ out_total = total + foldr Z.add 0 (map Verification.rank fresh))
  /\ (forall self todo panels total out_panels out_total,
     MathProof.e2_loop self todo panels total = Ok (out_panels, out_total) ->
     exists fresh,
       out_panels = panels ++ fresh
       /\ Forall2 (fun (x : string * Z * Z) r =>
            MathProof.Panel r = fst (fst x)
            /\ MathProof.cohomology_dimensions self !! snd (fst x) = Some (MathProof.H_p r)
            /\ MathProof.pin_coefficients self !! snd x = Some (MathProof.Pin r)
            /\ MathProof.E2 r = MathProof.H_p r * MathProof.Pin r) todo fresh
       /\ out_total = total + foldr Z.add 0 (map MathProof.E2 fresh)).
Proof.
  split.
  - intros self todo. induction todo as [|[[name p] q] todo IH];
      intros total panels out_panels out_total Hrun.
    + cbn in Hrun. injection Hrun as <- <-. exists [].
      rewrite app_nil_r. cbn. repeat split; [constructor | lia].
    + cbn in Hrun. unfold subscript in Hrun.
      destruct (Verification.cohomology_dimensions self !! p) as [h|] eqn:Hp;
        [| discriminate Hrun].
      destruct (Verification.pin_coefficients self !! q) as [r|] eqn:Hq;
        [| discriminate Hrun].
      cbn in Hrun. apply IH in Hrun as (fresh & Hpanels & Hmap & Hall & Htotal).
      eexists (_ :: fresh). rewrite <- app_assoc in Hpanels. cbn in Hpanels.
      split; [exact Hpanels |]. split; [cbn; rewrite Hmap; reflexivity |].
      split; [constructor; [cbn; auto | exact Hall] |].
      cbn. lia.
  - intros self todo. induction todo as [|[[name p] q] todo IH];
      intros panels total out_panels out_total Hrun.
    + cbn in Hrun. injection Hrun as <- <-. exists [].
      rewrite app_nil_r. cbn. repeat split; [constructor | lia].
    + cbn in Hrun. unfold subscript in Hrun.
      destruct (MathProof.cohomology_dimensions self !! p) as [h|] eqn:Hp;
        [| discriminate Hrun].
      destruct (MathProof.pin_coefficients self !! q) as [r|] eqn:Hq;
        [| discriminate Hrun].
      cbn in Hrun. apply IH in Hrun as (fresh & Hpanels & Hall & Htotal).
      eexists (_ :: fresh). rewrite <- app_assoc in Hpanels. cbn in Hpanels.
      split; [exact Hpanels |].
      split; [constructor; [cbn; auto | exact Hall] |].
      cbn. lia.
Qed.

Lemma rank_loop_invariant_witness :
  exists fresh,
    map Verification.rank fresh = [2; 2; 1; 2]
    /\ 7 = 0 + foldr Z.add 0 (map Verification.rank fresh).
Proof.
  destruct (proj1 rank_loop_invariant Verification.init Verification.e2_panels 0 []
              _ 7 eq_refl) as (fresh & Hpanels & _ & _ & Htotal).
  exists fresh. split; [| exact Htotal].
  cbn in Hpanels. subst fresh. reflexivity.
Defined.

(** X2: on an arbitrary panel list the loop of the verification script
    returns exactly when every [p] is a key of the cohomology table and
    every [q] a key of the Pin table; otherwise it raises [KeyError] for
    the first key that is missing, in the order [p] then [q] of the first
    incomplete panel, whatever was accumulated before. *)
Theorem rank_loop_first_missing_key self todo total panels :
  ((exists out, Verification.e2_loop self todo total panels = Ok out)
   <-> Forall (fun x : string * Z * Z =>
         is_Some (Verification.cohomology_dimensions self !! snd (fst x))
         /\ is_Some (Verification.pin_coefficients self !! snd x)) todo)
  /\ (forall e, Verification.e2_loop self todo total panels = Raise e ->
      exists before name p q after,
        todo = before ++ (name, p, q) :: after
        /\ Forall (fun x : string * Z * Z =>
             is_Some (Verification.cohomology_dimensions self !! snd (fst x))
             /\ is_Some (Verification.pin_coefficients self !! snd x)) before
        /\ ((Verification.cohomology_dimensions self !! p = None /\ e = KeyError p)
            \/ (is_Some (Verification.cohomology_dimensions self !! p)
                /\ Verification.pin_coefficients self !! q = None /\ e = KeyError q))).
Proof.
  revert total panels. induction todo as [|[[name p] q] todo IH]; intros total panels.
  - split.
    + split; [constructor | intros _; cbn; eauto].
    + intros e He. cbn in He. discriminate He.
  - cbn. unfold subscript.
    destruct (Verification.cohomology_dimensions self !! p) as [h|] eqn:Hp.
    + destruct (Verification.pin_coefficients self !! q) as [r|] eqn:Hq; cbn.
      * destruct (IH (total + h * r)
                    (panels ++ [Verification.Build_panel name p q h r (h * r)]))
          as [IHok IHerr].
        split.
        -- rewrite IHok. split.
           ++ intros Hall. constructor; [cbn; rewrite Hp, Hq; eauto | exact Hall].
           ++ intros Hall. inversion Hall; assumption.
        -- intros e He. destruct (IHerr e He)
             as (before & name' & p' & q' & after & -> & Hbefore & Hkey).
           exists ((name, p, q) :: before), name', p', q', after.
           split; [reflexivity |]. split; [| exact Hkey].
           constructor; [cbn; rewrite Hp, Hq; eauto | exact Hbefore].
      * split.
        -- split; [intros [out Hout]; discriminate Hout |].
           intros Hall. inversion Hall as [|x l [_ [v Hv]] _]; subst.
           cbn in Hv. congruence.
        -- intros e He. injection He as <-.
           exists [], name, p, q, todo. split; [reflexivity |].
           split; [constructor |]. right. rewrite Hp. eauto.
    + cbn. split.
      * split; [intros [out Hout]; discriminate Hout |].
        intros Hall. inversion Hall as [|x l [[v Hv] _] _]; subst.
        cbn in Hv. congruence.
      * intros e He. injection He as <-.
        exists [], name, p, q, todo. split; [reflexivity |].
        split; [constructor |]. left. split; [exact Hp | reflexivity].
Qed.

Lemma rank_loop_first_missing_key_witness :
  exists out,
    Verification.e2_loop Verification.init
      [("a"%string, 5, 0); ("b"%string, 2, 3); ("a"%string, 5, 0)] 0 [] = Ok out.
Proof.
  apply (proj1 (rank_loop_first_missing_key Verification.init
                  [("a"%string, 5, 0); ("b"%string, 2, 3); ("a"%string, 5, 0)] 0 [])).
  repeat constructor; cbn; eexists; reflexivity.
Defined.

(** ** The inline computation of the quick check *)

Lemma contains_None d k : d !! k = None -> contains d k = false.
Proof.
  intros H. unfold contains. apply bool_decide_eq_false. rewrite H.
  intros [v Hv]. discriminate Hv.
Qed.

(** X3: when the rank part of the quick check returns, every printed line
    [name: h x r = rank] shows the entries of the two tables at the panel's
    own [p] and [q] (the fallback lookups were not used), their product is
    the printed rank, and the total is the sum of the ranks. *)
Theorem quickcheck_printed_lines cd pr panels printed total :
  Quickcheck.diagonal cd pr = Ok (panels, printed, total) ->
  map (fun x : string * Z * Z * Z => (snd (fst (fst x)), snd (fst x))) panels = diagonal_5
  /\ Forall2 (fun (x : string * Z * Z * Z) (l : Quickcheck.line) =>
       fst (fst (fst l)) = fst (fst (fst x))
       /\ cd !! snd (fst (fst x)) = Some (snd (fst (fst l)))
       /\ pr !! snd (fst x) = Some (snd (fst l))
       /\ snd l = snd x
       /\ snd l = snd (fst (fst l)) * snd (fst l)) panels printed
  /\ total = foldr Z.add 0 (map snd panels).
Proof.
  intros Hrun. destruct (complete_or_incomplete cd pr) as [Hc|Hi].
  - destruct (complete_lookups cd pr Hc)
      as (c5 & r0 & c4 & r1 & c3 & r2 & c2 & r3 & H5 & H0 & H4 & H1 & H3 & H2 & H2' & H3').
    rewrite (quickcheck_diagonal_complete _ _ _ _ _ _ _ _ _ _ H5 H0 H4 H1 H3 H2 H2' H3')
      in Hrun.
    injection Hrun as <- <- <-.
    split; [reflexivity |]. split; [| cbn; lia].
    repeat constructor; cbn; assumption.
  - destruct (rank_sum_incomplete cd pr Hi) as (k & Hk & _).
    apply quickcheck_diagonal_raise in Hk. congruence.
Qed.

Lemma quickcheck_printed_lines_witness :
  7 = foldr Z.add 0 (map snd
        [("E^{5,0}"%string, 5, 0, 2); ("E^{4,1}"%string, 4, 1, 2);
         ("E^{3,2}"%string, 3, 2, 1); ("E^{2,3}"%string, 2, 3, 2)]).
Proof.
  apply (quickcheck_printed_lines Quickcheck.cohomology_dims Quickcheck.pin_ranks
           _ _ 7 eq_refl).
Defined.

(** X4: taken alone, the loop of the quick check never recomputes a rank:
    whenever it returns, it has printed one line per tuple with the
    tuple's name and rank, and the total has grown by the sum of the
    tuples' ranks.  It returns exactly when, for every tuple, [p] or else
    [q] is a key of the cohomology table and [q] or else [p] a key of the
    Pin table: a key missing at [p] goes unnoticed when [q] is a key. *)
Theorem quickcheck_loop_fallback cd pr todo :
  (forall printed total out_printed out_total,
     Quickcheck.e2_loop cd pr todo printed total = Ok (out_printed, out_total) ->
     exists lines,
       out_printed = printed ++ lines
       /\ map (fun l : Quickcheck.line => (fst (fst (fst l)), snd l)) lines
          = map (fun x : string * Z * Z * Z => (fst (fst (fst x)), snd x)) todo
       /\ out_total = total + foldr Z.add 0 (map snd todo))
  /\ (forall printed total,
        (exists out, Quickcheck.e2_loop cd pr todo printed total = Ok out)
        <-> Forall (fun x : string * Z * Z * Z =>
              (is_Some (cd !! snd (fst (fst x))) \/ is_Some (cd !! snd (fst x)))
              /\ (is_Some (pr !! snd (fst x)) \/ is_Some (pr !! snd (fst (fst x))))) todo).
Proof.
  induction todo as [|[[[name p] q] rank] todo [IHsum IHok]].
  - split.
    + intros printed total out_printed out_total Hrun. cbn in Hrun.
      injection Hrun as <- <-. exists []. rewrite app_nil_r. cbn.
      repeat split. lia.
    + intros printed total. split; [constructor | intros _; cbn; eauto].
  - assert (Hh : forall k1 k2 (d : gmap Z Z),
               (exists v, (if contains d k1 then subscript d k1 else subscript d k2) = Ok v)
               <-> (is_Some (d !! k1) \/ is_Some (d !! k2))).
    { intros k1 k2 d. unfold subscript.
      destruct (d !! k1) as [v1|] eqn:H1.
      - rewrite (contains_Some _ _ _ H1). split; [intros _; left; eauto | eauto].
      - rewrite (contains_None _ _ H1).
        destruct (d !! k2) as [v2|] eqn:H2.
        + split; [intros _; right; eauto | eauto].
        + split; [intros [v Hv]; discriminate Hv |].
          intros [[v Hv]|[v Hv]]; discriminate Hv. }
    split.
    + intros printed total out_printed out_total Hrun. cbn in Hrun.
      destruct (if contains cd p then subscript cd p else subscript cd q) as [h|];
        [| discriminate Hrun].
      destruct (if contains pr q then subscript pr q else subscript pr p) as [r|];
        [| discriminate Hrun].
      cbn in Hrun. apply IHsum in Hrun as (lines & Hprinted & Hmap & Htotal).
      exists ((name, h, r, rank) :: lines). rewrite <- app_assoc in Hprinted.
      split; [exact Hprinted |]. split; [cbn; rewrite Hmap; reflexivity |].
      cbn. lia.
    + intros printed total. cbn.
      specialize (Hh p q cd) as Hcd. specialize (Hh q p pr) as Hpr.
      destruct (if contains cd p then subscript cd p else subscript cd q) as [h|].
      * destruct (if contains pr q then subscript pr q else subscript pr p) as [r|]; cbn.
        -- rewrite IHok. split.
           ++ intros Hall. constructor; [| exact Hall]. cbn. split.
              ** apply Hcd. eauto.
              ** apply Hpr. eauto.
           ++ intros Hall. inversion Hall; assumption.
        -- split; [intros [out Hout]; discriminate Hout |].
           intros Hall. inversion Hall as [|x l [_ Hq] _]; subst. cbn in Hq.
           apply Hpr in Hq as [v Hv]. discriminate Hv.
      * cbn. split; [intros [out Hout]; discriminate Hout |].
        intros Hall. inversion Hall as [|x l [Hp _] _]; subst. cbn in Hp.
        apply Hcd in Hp as [v Hv]. discriminate Hv.
Qed.

Lemma quickcheck_loop_fallback_witness :
  exists out,
    Quickcheck.e2_loop (<[0 := 9]> ∅) embedded_pin_coefficients
      [("E^{5,0}"%string, 5, 0, 2)] [] 0 = Ok out.
Proof.
  apply (proj2 (quickcheck_loop_fallback (<[0 := 9]> ∅) embedded_pin_coefficients
                  [("E^{5,0}"%string, 5, 0, 2)]) [] 0).
  constructor; [| constructor]. cbn. split.
  - right. eexists. reflexivity.
  - left. eexists. reflexivity.
Defined.

(** ** Signs in binary64 *)
Section FloatSigns.

Local Open Scope float_scope.

Lemma binary_round_aux_negb (s : bool) (m e : Z) (l : location) :
  binary_round_aux prec emax (negb s) m e l
  = SFopp (binary_round_aux prec emax s m e l).
Proof.
  unfold binary_round_aux.
  destruct (shr_fexp prec emax m e l) as [mrs' e'].
  destruct (shr_fexp prec emax _ e' loc_Exact) as [mrs'' e''].
  destruct (shr_m mrs'') as [|p|p]; try reflexivity.
  destruct (e'' <=? emax - prec)%Z; reflexivity.
Qed.

Lemma SFdiv_opp_l (x y : spec_float) :
  SF64div (SFopp x) y = SFopp (SF64div x y).
Proof.
  unfold SF64div.
  destruct x as [sx|sx| |sx mx ex], y as [sy|sy| |sy my ey]; try reflexivity;
    try (destruct sx, sy; reflexivity).
  cbn [SFopp SFdiv].
  destruct (SFdiv_core_binary prec emax (Z.pos mx) ex (Z.pos my) ey) as [[mz ez] lz].
  rewrite <- binary_round_aux_negb. destruct sx, sy; reflexivity.
Qed.

Lemma SFdiv_opp_r (x y : spec_float) :
  SF64div x (SFopp y) = SFopp (SF64div x y).
Proof.
  unfold SF64div.
  destruct x as [sx|sx| |sx mx ex], y as [sy|sy| |sy my ey]; try reflexivity;
    try (destruct sx, sy; reflexivity).
  cbn [SFopp SFdiv].
  destruct (SFdiv_core_binary prec emax (Z.pos mx) ex (Z.pos my) ey) as [[mz ez] lz].
  rewrite <- binary_round_aux_negb. destruct sx, sy; reflexivity.
Qed.

Lemma SFmul_opp_r (x y : spec_float) :
  SF64mul x (SFopp y) = SFopp (SF64mul x y).
Proof.
  unfold SF64mul.
  destruct x as [sx|sx| |sx mx ex], y as [sy|sy| |sy my ey]; try reflexivity;
    try (destruct sx, sy; reflexivity).
  cbn [SFopp SFmul]. rewrite <- binary_round_aux_negb. destruct sx, sy; reflexivity.
Qed.

Lemma div_opp_l (x y : float) : (- x) / y = - (x / y).
Proof.
  apply Prim2SF_inj.
  rewrite FloatAxioms.div_spec, !FloatAxioms.opp_spec, FloatAxioms.div_spec.
  apply SFdiv_opp_l.
Qed.

Lemma div_opp_r (x y : float) : x / (- y) = - (x / y).
Proof.
  apply Prim2SF_inj.
  rewrite FloatAxioms.div_spec, !FloatAxioms.opp_spec, FloatAxioms.div_spec.
  apply SFdiv_opp_r.
Qed.

Lemma mul_opp_r (x y : float) : x * (- y) = - (x * y).
Proof.
  apply Prim2SF_inj.
  rewrite FloatAxioms.mul_spec, !FloatAxioms.opp_spec, FloatAxioms.mul_spec.
  apply SFmul_opp_r.
Qed.

Lemma opp_involutive (x : float) : - (- x) = x.
Proof.
  apply Prim2SF_inj. rewrite !FloatAxioms.opp_spec.
  destruct (Prim2SF x) as [[]|[]| |[] m e]; reflexivity.
Qed.

Lemma abs_opp (x : float) : abs (- x) = abs x.
Proof.
  apply Prim2SF_inj. rewrite !FloatAxioms.abs_spec, FloatAxioms.opp_spec.
  destruct (Prim2SF x) as [[]|[]| |[] m e]; reflexivity.
Qed.

Lemma eqb_zero_opp (x : float) : (- x =? 0) = (x =? 0).
Proof.
  rewrite !FloatAxioms.eqb_spec, FloatAxioms.opp_spec.
  destruct (Prim2SF x) as [[]|[]| |[] m e]; reflexivity.
Qed.

Lemma div_nan_l (y : float) : nan / y = nan.
Proof.
  apply Prim2SF_inj. rewrite FloatAxioms.div_spec.
  change (Prim2SF nan) with S754_nan. reflexivity.
Qed.

Lemma div_nan_r (x : float) : x / nan = nan.
Proof.
  apply Prim2SF_inj. rewrite FloatAxioms.div_spec.
  change (Prim2SF nan) with S754_nan.
  destruct (Prim2SF x); reflexivity.
Qed.

(** A float is zero, of either sign, exactly when [=? 0] holds. *)
Lemma eqb_zero_cases (x : float) : (x =? 0) = true -> x = 0 \/ x = (-0).
Proof.
  rewrite FloatAxioms.eqb_spec. intros H.
  assert (Hx : exists s, Prim2SF x = S754_zero s).
  { destruct (Prim2SF x) as [s|[]| |[] m e]; try discriminate H. eauto. }
  destruct Hx as [s Hs]. rewrite <- (SF2Prim_Prim2SF x), Hs.
  destruct s; [right | left]; reflexivity.
Qed.

(** The product of a finite float and a zero is a zero. *)
Lemma mul_finite_zero (x y : float) :
  is_finite x = true -> (y =? 0) = true -> (x * y =? 0) = true.
Proof.
  unfold is_finite, is_nan, is_infinity.
  rewrite !FloatAxioms.eqb_spec, FloatAxioms.abs_spec, FloatAxioms.mul_spec.
  change (Prim2SF infinity) with (S754_infinity false).
  change (Prim2SF 0) with (S754_zero false).
  destruct (Prim2SF x) as [[]|[]| |[] m e] eqn:Hx; intros Hfin;
    try (vm_compute in Hfin; discriminate Hfin);
    destruct (Prim2SF y) as [[]|[]| |[] m' e']; intros Hzero;
    try (vm_compute in Hzero; discriminate Hzero); reflexivity.
Qed.

End FloatSigns.

(** ** The guarded half-ratio *)

(** X5: [safe_ratio] is even under a joint change of sign and odd in each
    argument alone, NaN sentinel included: negative numerators and
    denominators are handled like positive ones. *)
Theorem safe_ratio_signs (num den : float) :
  CEnv.safe_ratio (- num) (- den) = CEnv.safe_ratio num den
  /\ CEnv.safe_ratio (- num) den = PrimFloat.opp <$> CEnv.safe_ratio num den
  /\ CEnv.safe_ratio num (- den) = PrimFloat.opp <$> CEnv.safe_ratio num den.
Proof.
  unfold CEnv.safe_ratio, float_div. rewrite abs_opp, eqb_zero_opp.
  destruct (abs den <? 1e-30)%float; [repeat split |].
  destruct (den =? 0)%float; [repeat split |]. cbn.
  rewrite !div_opp_l, !div_opp_r, opp_involutive, !mul_opp_r. repeat split.
Qed.

(** X6: a NaN operand gives the same answer as a denominator below the
    threshold: the sentinel does not tell the two apart. *)
Theorem safe_ratio_nan_operand (x : float) :
  CEnv.safe_ratio nan x = Ok nan /\ CEnv.safe_ratio x nan = Ok nan.
Proof.
  split.
  - unfold CEnv.safe_ratio, float_div.
    destruct (abs x <? 1e-30)%float eqn:Hsmall; [reflexivity |].
    destruct (x =? 0)%float eqn:Hzero.
    + apply zero_below_threshold in Hzero. congruence.
    + cbn. rewrite div_nan_l. reflexivity.
  - unfold CEnv.safe_ratio, float_div. cbn. rewrite div_nan_r. reflexivity.
Qed.

(** ** Underflow of the predicted density *)

(** X7: when the C [pow] underflows to zero at the exponent [-I10] (as it
    does once [I10] exceeds about 323) and the Planck density is finite,
    the predicted density is a zero and the prediction raises
    [ZeroDivisionError] in all three scripts. *)
Theorem prediction_underflow (C : libm) (planck observed : float) (m : Z)
    (exponent : float) :
  0 <= m ->
  float_of_int (- decade_index m) = Ok exponent ->
  (c_pow C 10 exponent =? 0)%float = true ->
  is_finite planck = true ->
  (exists predicted, predictDensity C planck (decade_index m) = Ok predicted
                     /\ (predicted =? 0)%float = true)
  /\ (forall cd pr,
        MathProof.verify_physical_prediction C
          (MathProof.Build_MobiusIndexCalculation planck observed cd pr) m
        = Raise ZeroDivisionError)
  /\ (forall cd pr,
        Verification.verify_physical_prediction C
          (Verification.Build_MobiusIndexCalculation planck observed cd pr) m
        = Raise ZeroDivisionError)
  /\ Quickcheck.prediction C planck observed m = Raise ZeroDivisionError.
Proof.
  intros Hm Hconv Hzero Hfin.
  assert (Hpos : 0 < decade_index m) by (pose proof (decade_index_ge_3 m Hm); lia).
  assert (Hscale := pow10_negative C _ _ Hpos Hconv).
  assert (Hprod := mul_finite_zero planck _ Hfin Hzero).
  split; [| split; [| split]].
  - exists (planck * c_pow C 10 exponent)%float. split; [| exact Hprod].
    unfold predictDensity. rewrite Hscale. reflexivity.
  - intros cd pr. unfold MathProof.verify_physical_prediction.
    rewrite Hscale. cbn. unfold float_div. rewrite Hprod. reflexivity.
  - intros cd pr. unfold Verification.verify_physical_prediction.
    rewrite Hscale. cbn. unfold float_div. rewrite Hprod. reflexivity.
  - unfold Quickcheck.prediction. rewrite Hscale. cbn. unfold float_div.
    rewrite Hprod. reflexivity.
Qed.

Lemma prediction_underflow_witness :
  Quickcheck.prediction (Build_libm (fun _ _ => 0%float) (fun x => x))
    5.16e96 5.83e-27 9 = Raise ZeroDivisionError.
Proof.
  apply (prediction_underflow (Build_libm (fun _ _ => 0%float) (fun x => x))
           5.16e96 5.83e-27 9 (-505)%float); [lia | | |]; reflexivity.
Defined.

(** ** The exit status and the sensitivity runs *)



(** ** The decade index as an exponent *)

(** X9: for every [m >= 0] the decade index is at least 3 and grows by
    [2^m - 1] from [m] to [m + 1]; the exponent [-I10] is therefore always
    negative, and [10 ** (-I10)] is always the floating-point power, never
    the integer one. *)
Theorem decade_index_exponent (m : Z) :
  0 <= m ->
  3 <= decade_index m
  /\ decade_index (m + 1) = decade_index m + (2 ^ m - 1)
  /\ forall C, pow10 C (- decade_index m)
               = (y ← float_of_int (- decade_index m); Ok (Float (c_pow C 10 y))).
Proof.
  intros Hm. pose proof (decade_index_ge_3 m Hm) as Hge.
  split; [exact Hge |]. split; [apply decade_index_succ, Hm |].
  intros C. unfold pow10.
  destruct (0 <=? - decade_index m) eqn:Hle; [apply Z.leb_le in Hle; lia | reflexivity].
Qed.

Lemma decade_index_exponent_witness :
  3 <= decade_index 7 /\ decade_index (7 + 1) = decade_index 7 + (2 ^ 7 - 1).
Proof.
  destruct (decade_index_exponent 7 ltac:(lia)) as (H1 & H2 & _).
  split; assumption.
Defined.

(** ** The odd-winding kernel *)

Lemma range_empty (lo hi : Z) : hi <= lo -> range lo hi = [].
Proof.
  intros H. unfold range. replace (Z.to_nat (hi - lo)) with 0%nat by lia. reflexivity.
Qed.

Lemma range_cons (lo hi : Z) : lo < hi -> range lo hi = lo :: range (lo + 1) hi.
Proof.
  intros H. unfold range.
  replace (Z.to_nat (hi - lo)) with (S (Z.to_nat (hi - (lo + 1)))) by lia.
  cbn [seq map]. f_equal; [lia |].
  rewrite <- seq_shift, map_map. apply map_ext. intros i. lia.
Qed.

Lemma range_snoc (lo hi : Z) : lo <= hi -> range lo (hi + 1) = range lo hi ++ [hi].
Proof.
  intros H. unfold range.
  replace (Z.to_nat (hi + 1 - lo)) with (S (Z.to_nat (hi - lo))) by lia.
  rewrite seq_S, map_app. cbn [map]. do 2 f_equal. lia.
Qed.

(** An even [w] at the end of the list leaves the sum alone. *)
Lemma K_odd_loop_even_last c_exp t L ws w s :
  w mod 2 = 0 ->
  CEnv.K_odd_loop c_exp t L (ws ++ [w]) s = CEnv.K_odd_loop c_exp t L ws s.
Proof.
  intros Hw. revert s. induction ws as [|v ws IH]; intros s.
  - cbn. rewrite Hw. reflexivity.
  - cbn [app CEnv.K_odd_loop]. destruct (negb (v mod 2 =? 0)); [| apply IH].
    destruct (float_mul (- (L * L)) (Int (v * v))) as [numerator|e]; [| reflexivity].
    cbn [mbind result_bind].
    destruct (float_div numerator (4 * t)) as [argument|e]; [| reflexivity].
    cbn [mbind result_bind].
    destruct (math_exp c_exp argument) as [term|e]; [| reflexivity].
    cbn [mbind result_bind]. apply IH.
Qed.

(** X10: only odd winding numbers contribute: for an even bound [Wmax]
    the kernel is the one of the bound [Wmax - 1], value or exception,
    for every [t], [L] and C [exp]. *)
Theorem K_odd_even_bound c_exp (t L : float) (Wmax : Z) :
  Wmax mod 2 = 0 ->
  CEnv.K_odd c_exp t L Wmax = CEnv.K_odd c_exp t L (Wmax - 1).
Proof.
  intros Heven. unfold CEnv.K_odd.
  replace (Wmax - 1 + 1) with Wmax by lia.
  replace (- (Wmax - 1)) with (- Wmax + 1) by lia.
  assert (Hhalf : Wmax = 2 * (Wmax / 2)) by (apply Z.div_exact; [lia | exact Heven]).
  assert (Hcases : Wmax < 0 \/ Wmax = 0 \/ 2 <= Wmax) by lia.
  clear Hhalf. destruct Hcases as [Hneg | [-> | Hpos]].
  - rewrite !range_empty by lia. reflexivity.
  - reflexivity.
  - rewrite (range_cons (- Wmax)) by lia.
    rewrite (range_snoc (- Wmax + 1)) by lia.
    cbn [CEnv.K_odd_loop].
    replace (- Wmax mod 2) with 0
      by (symmetry; apply Z.mod_opp_l_z; [lia | exact Heven]).
    cbn [Z.eqb negb].
    rewrite K_odd_loop_even_last by exact Heven. reflexivity.
Qed.

Lemma K_odd_even_bound_witness :
  CEnv.K_odd (fun x => x) 0.5 (2 * math_pi)%float 26
  = CEnv.K_odd (fun x => x) 0.5 (2 * math_pi)%float (26 - 1).
Proof. apply K_odd_even_bound. reflexivity. Defined.

(** With a zero denominator [4.0*t] the loop returns its sum untouched or
    raises at the first odd [w]. *)
Lemma K_odd_loop_zero c_exp t L ws s :
  (4 * t =? 0)%float = true ->
  CEnv.K_odd_loop c_exp t L ws s = Ok s
  \/ CEnv.K_odd_loop c_exp t L ws s = Raise ZeroDivisionError
  \/ CEnv.K_odd_loop c_exp t L ws s = Raise OverflowError.
Proof.
  intros Hzero. induction ws as [|w ws IH]; [left; reflexivity |].
  cbn. destruct (negb (w mod 2 =? 0)); [| exact IH].
  unfold float_mul, float_of_int.
  destruct (is_infinity _); cbn; [right; right; reflexivity |].
  unfold float_div. rewrite Hzero. right. left. reflexivity.
Qed.

(** X11: at [t = 0.0] (of either sign) [K_odd] never returns a value: it
    raises [ZeroDivisionError], or [OverflowError] if a square [w*w] is too
    large for a float; with the default bound [Wmax = 25] it is
    [ZeroDivisionError], for every [L] and C [exp]. *)
Theorem K_odd_at_zero c_exp (t L : float) (Wmax : Z) :
  (t =? 0)%float = true ->
  (CEnv.K_odd c_exp t L Wmax = Raise ZeroDivisionError
   \/ CEnv.K_odd c_exp t L Wmax = Raise OverflowError)
  /\ CEnv.K_odd c_exp t L 25 = Raise ZeroDivisionError.
Proof.
  intros Ht.
  assert (H4 : (4 * t =? 0)%float = true)
    by (destruct (eqb_zero_cases t Ht) as [-> | ->]; reflexivity).
  split.
  - unfold CEnv.K_odd.
    destruct (K_odd_loop_zero c_exp t L (range (- Wmax) (Wmax + 1)) 0%float H4)
      as [-> | [-> | ->]]; [| left; reflexivity | right; reflexivity].
    left. destruct (eqb_zero_cases t Ht) as [-> | ->]; reflexivity.
  - destruct (eqb_zero_cases t Ht) as [-> | ->]; reflexivity.
Qed.

Lemma K_odd_at_zero_witness :
  CEnv.K_odd (fun x => x) 0 (2 * math_pi)%float 25 = Raise ZeroDivisionError.
Proof. apply (K_odd_at_zero (fun x => x) 0 (2 * math_pi)%float 25). reflexivity. Defined.

(** ** The three predictions against each other *)




